(** * OAuth2 auth provider (plugins/auth-backend/src/providers/oauth2/provider.ts)

    A shallow embedding of [OAuth2AuthProvider] and [createOAuth2Provider].
    The class and the factory are embedded from the source; the helpers they
    import from [lib/PassportStrategyHelper], [lib/OAuthProvider] and
    [@backstage/config] are interfaces the development is parameterised by.
    Definitions come first, the theorems follow. *)

From Stdlib Require Import ZArith Ascii String.
From stdpp Require Import base option strings list gmap.

Local Open Scope string_scope.

(** ** JavaScript preliminaries *)

(** An [Error] object: the class name and the message. *)
Record JsError : Type := MkJsError {
  name : string;
  message : string;
}.

(** [new Error(msg)] *)
Definition new_Error (msg : string) : JsError :=
  {| name := "Error"; message := msg |}.

(** The outcome of awaiting a promise (or of a synchronous call that may
    throw): the value it resolved with, or the error it was rejected with. *)
Inductive Promise (A : Type) : Type :=
| Resolve (a : A)
| Reject (e : JsError).
Arguments Resolve {A} a.
Arguments Reject {A} e.

(** [await p] followed by the rest of the function: a rejection of [p] is
    propagated and the rest is not run. Written [x ← p; k] below. *)
#[global] Instance promise_bind : MBind Promise := λ A B k p,
  match p with
  | Resolve a => k a
  | Reject e => Reject e
  end.
#[global] Instance promise_ret : MRet Promise := λ A a, Resolve a.

(** [String.prototype.split] for a separator of one character. The result
    always has a first element: the characters before the first separator,
    or the whole string when there is none. Strings are sequences of bytes
    here; the byte of ["@"] occurs in UTF-8 text only as that character, so
    splitting the bytes there is splitting the characters. *)
Fixpoint split (sep : ascii) (s : string) : list string :=
  match s with
  | EmptyString => [EmptyString]
  | String c s' =>
      if Ascii.eqb c sep then EmptyString :: split sep s'
      else match split sep s' with
           | w :: ws => String c w :: ws
           | [] => [String c EmptyString]
           end
  end.

(** [occurs c s]: the character [c] occurs in [s]. *)
Fixpoint occurs (c : ascii) (s : string) : bool :=
  match s with
  | EmptyString => false
  | String c' s' => Ascii.eqb c' c || occurs c s'
  end.

(** ** Data model *)

(** Modelled from the spec: the types [ProviderInfo], [ProfileInfo],
    [OAuthResponse] and [RedirectInfo] are imported from [../types], which
    is not in the source. Their members are those of section 3 of the
    specification and of the object literals of the provider (lines 72-80,
    128-136 and 152); a member that may be [undefined] is an [option]. *)
Record ProviderInfo : Type := MkProviderInfo {
  idToken : option string;
  accessToken : string;
  scope : option string;
  expiresInSeconds : option Z;
}.

Record ProfileInfo : Type := MkProfileInfo {
  email : option string;
  displayName : option string;
  picture : option string;
}.

(** [id] is [string | undefined] at run time: it is read out of an array. *)
Record BackstageIdentity : Type := MkBackstageIdentity {
  id : option string;
}.

Record OAuthResponse : Type := MkOAuthResponse {
  providerInfo : ProviderInfo;
  profile : ProfileInfo;
  backstageIdentity : option BackstageIdentity;
}.

(** [{ ...response, backstageIdentity: b }] *)
Definition with_backstageIdentity (response : OAuthResponse)
    (b : BackstageIdentity) : OAuthResponse :=
  {| providerInfo := response.(providerInfo);
     profile := response.(profile);
     backstageIdentity := Some b |}.

(** [params]: the token endpoint's answer as the strategy hands it on; the
    members the provider reads (lines 74-77 and 131-133). *)
Module Params.
Record t : Type := Make {
  id_token : option string;
  scope : option string;
  expires_in : option Z;
}.
End Params.

(** [PrivateInfo] (lines 40-42). [refreshToken] is [any] where it is
    produced: [undefined] when the token endpoint sent none. *)
Record PrivateInfo : Type := MkPrivateInfo {
  refreshToken : option string;
}.

(** The arguments of one call [done(err, result, info)]. *)
Record Done : Type := MkDone {
  err : option JsError;
  result : OAuthResponse;
  info : PrivateInfo;
}.

Record RedirectInfo : Type := MkRedirectInfo {
  url : string;
  status : option Z;
}.

(** [OAuth2Strategy] of passport-oauth2, as far as the provider builds it
    (lines 53-86): the options object and the verify callback. *)
Module Strategy.
Record options : Type := MakeOptions {
  clientID : string;
  clientSecret : string;
  callbackURL : string;
  authorizationURL : string;
  tokenURL : string;
  passReqToCallback : bool;
}.

Record t (RawProfile : Type) : Type := Make {
  opts : options;
  verify : string → option string → Params.t → RawProfile → Promise Done;
}.
Arguments Make {RawProfile} opts verify.
Arguments opts {RawProfile} _.
Arguments verify {RawProfile} _.
End Strategy.

(** [OAuth2AuthProviderOptions] (lines 44-47), with the members the
    constructor reads. *)
Module OAuth2AuthProviderOptions.
Record t : Type := Make {
  clientId : string;
  clientSecret : string;
  callbackUrl : string;
  authorizationUrl : string;
  tokenUrl : string;
}.
End OAuth2AuthProviderOptions.

Record OAuth2AuthProvider (RawProfile : Type) : Type := MkOAuth2AuthProvider {
  _strategy : Strategy.t RawProfile;
}.
Arguments MkOAuth2AuthProvider {RawProfile} _.
Arguments _strategy {RawProfile} _.

(** The value [handler] resolves with (lines 109-112). *)
Module HandlerResult.
Record t : Type := Make {
  response : OAuthResponse;
  refreshToken : option string;
}.
End HandlerResult.

(** ** [OAuth2AuthProvider.populateIdentity] (lines 141-153) *)

Definition populateIdentity_error : JsError :=
  new_Error "Profile does not contain a profile".

(** [!profile.email] holds when the email is [undefined] or the empty
    string; past the guard the email is a non-empty string. *)
Definition populateIdentity (response : OAuthResponse) : Promise OAuthResponse :=
  let profile := response.(profile) in
  match profile.(email) with
  | None => Reject populateIdentity_error
  | Some EmptyString => Reject populateIdentity_error
  | Some email =>
      let id := split "@" email !! 0%nat in
      Resolve (with_backstageIdentity response {| id := id |})
  end.

(** The local part of an address as the specification words it: the
    substring before the first ["@"]. *)
Definition before_first_at (e : string) : string :=
  match String.index 0 "@" e with
  | Some n => String.substring 0 n e
  | None => e
  end.

(** The error kind the specification names for a profile without email. *)
Definition IdentityResolutionError (msg : string) : JsError :=
  {| name := "IdentityResolutionError"; message := msg |}.

(** ** [OAuth2AuthProvider] *)

(** The helpers imported from [lib/PassportStrategyHelper], over
    [express.Request] and [passport.Profile]. *)
Class PassportStrategyHelper (Request RawProfile : Type) : Type := {
  makeProfileInfo : RawProfile → option string → Promise ProfileInfo;
  executeRedirectStrategy :
    Request → Strategy.t RawProfile → gmap string string → Promise RedirectInfo;
  executeFrameHandlerStrategy :
    Request → Strategy.t RawProfile → Promise (OAuthResponse * PrivateInfo);
  executeRefreshTokenStrategy :
    Strategy.t RawProfile → string → string → Promise (string * Params.t);
  executeFetchUserProfileStrategy :
    Strategy.t RawProfile → string → option string → Promise ProfileInfo;
}.

(** What the options object of [createOAuth2Provider]'s last call holds. *)
Record OAuthProviderOptions (TokenIssuer : Type) : Type := MkOAuthProviderOptions {
  disableRefresh : bool;
  providerId : string;
  tokenIssuer : TokenIssuer;
}.
Arguments MkOAuthProviderOptions {TokenIssuer} _ _ _.
Arguments disableRefresh {TokenIssuer} _.
Arguments providerId {TokenIssuer} _.
Arguments tokenIssuer {TokenIssuer} _.

(** What the factory imports: [AuthProviderConfig] with its [baseUrl],
    [Config] of [@backstage/config] with [getString], which throws when the
    key is missing or not a string, and [OAuthProvider.fromConfig]. *)
Class FactoryHost (AuthProviderConfig Config TokenIssuer Handlers RawProfile : Type)
    : Type := {
  baseUrl : AuthProviderConfig → string;
  getString : Config → string → Promise string;
  OAuthProvider_fromConfig :
    AuthProviderConfig → OAuth2AuthProvider RawProfile →
    OAuthProviderOptions TokenIssuer → Promise Handlers;
}.

Section Provider.
Context {Request RawProfile : Type} `{!PassportStrategyHelper Request RawProfile}.

(** The verify callback of the constructor (lines 62-85); its value is the
    call of [done] it ends with. *)
Definition verify (accessToken : string) (refreshToken : option string)
    (params : Params.t) (rawProfile : RawProfile) : Promise Done :=
  profile ← makeProfileInfo rawProfile params.(Params.id_token);
  mret {| err := None;
          result :=
            {| providerInfo :=
                 {| idToken := params.(Params.id_token);
                    accessToken := accessToken;
                    scope := params.(Params.scope);
                    expiresInSeconds := params.(Params.expires_in) |};
               profile := profile;
               backstageIdentity := None |};
          info := {| refreshToken := refreshToken |} |}.

(** The constructor (lines 52-87). *)
Definition new_OAuth2AuthProvider (options : OAuth2AuthProviderOptions.t)
    : OAuth2AuthProvider RawProfile :=
  {| _strategy :=
       Strategy.Make
         {| Strategy.clientID := options.(OAuth2AuthProviderOptions.clientId);
            Strategy.clientSecret := options.(OAuth2AuthProviderOptions.clientSecret);
            Strategy.callbackURL := options.(OAuth2AuthProviderOptions.callbackUrl);
            Strategy.authorizationURL := options.(OAuth2AuthProviderOptions.authorizationUrl);
            Strategy.tokenURL := options.(OAuth2AuthProviderOptions.tokenUrl);
            Strategy.passReqToCallback := false |}
         verify |}.

(** [start] (lines 89-99); [providerOptions] is
    [{ ...options, accessType: 'offline', prompt: 'consent' }]. *)
Definition providerOptions (options : gmap string string) : gmap string string :=
  <["prompt" := "consent"]> (<["accessType" := "offline"]> options).

Definition start (this : OAuth2AuthProvider RawProfile) (req : Request)
    (options : gmap string string) : Promise RedirectInfo :=
  executeRedirectStrategy req this.(_strategy) (providerOptions options).

(** [handler] (lines 101-113). *)
Definition handler (this : OAuth2AuthProvider RawProfile) (req : Request)
    : Promise HandlerResult.t :=
  '(response, privateInfo) ← executeFrameHandlerStrategy req this.(_strategy);
  response' ← populateIdentity response;
  mret {| HandlerResult.response := response';
          HandlerResult.refreshToken := privateInfo.(refreshToken) |}.

(** [refresh] (lines 115-137). *)
Definition refresh (this : OAuth2AuthProvider RawProfile)
    (refreshToken scope : string) : Promise OAuthResponse :=
  '(accessToken, params) ←
    executeRefreshTokenStrategy this.(_strategy) refreshToken scope;
  profile ←
    executeFetchUserProfileStrategy this.(_strategy) accessToken
      params.(Params.id_token);
  populateIdentity
    {| providerInfo :=
         {| accessToken := accessToken;
            idToken := params.(Params.id_token);
            expiresInSeconds := params.(Params.expires_in);
            scope := params.(Params.scope) |};
       profile := profile;
       backstageIdentity := None |}.

(** *** [createOAuth2Provider] (lines 156-183) *)

Context {AuthProviderConfig Config Logger TokenIssuer Handlers : Type}
  `{!FactoryHost AuthProviderConfig Config TokenIssuer Handlers RawProfile}.

Definition createOAuth2Provider (config : AuthProviderConfig) (_env : string)
    (envConfig : Config) (_logger : Logger) (tokenIssuer : TokenIssuer)
    : Promise Handlers :=
  let providerId := "oauth2" in
  clientId ← getString envConfig "clientId";
  clientSecret ← getString envConfig "clientSecret";
  let callbackUrl := baseUrl config +:+ "/" +:+ providerId +:+ "/handler/frame" in
  authorizationUrl ← getString envConfig "authorizationUrl";
  tokenUrl ← getString envConfig "tokenUrl";
  let provider :=
    new_OAuth2AuthProvider
      {| OAuth2AuthProviderOptions.clientId := clientId;
         OAuth2AuthProviderOptions.clientSecret := clientSecret;
         OAuth2AuthProviderOptions.callbackUrl := callbackUrl;
         OAuth2AuthProviderOptions.authorizationUrl := authorizationUrl;
         OAuth2AuthProviderOptions.tokenUrl := tokenUrl |} in
  OAuthProvider_fromConfig config provider
    {| disableRefresh := false;
       providerId := providerId;
       tokenIssuer := tokenIssuer |}.

End Provider.

(** ** The strategy adapter of the specification *)

(** Modelled from the spec: [executeFrameHandlerStrategy] is not in the
    source. The strategy delivers its result through the completion
    callback: the helper resolves with the [result] and the [info] the verify
    callback passed to [done], and is rejected with the error it passed or
    threw. *)
Definition frame_completion (d : Promise Done)
    : Promise (OAuthResponse * PrivateInfo) :=
  d ← d;
  match d.(err) with
  | Some e => Reject e
  | None => Resolve (d.(result), d.(info))
  end.

(** A query parameter that is sent when it has a value. *)
Definition query_param (k : string) (v : option string) : list (string * string) :=
  match v with
  | Some v => [(k, v)]
  | None => []
  end.

(** Modelled from the spec: the query parameters of the authorization
    request, which [executeRedirectStrategy] and the strategy (neither in the
    source) build: [response_type=code], [redirect_uri], [client_id], the
    caller's [scope] and [state], and the extra parameters [access_type] and
    [prompt], which the provider passes as the options [accessType] and
    [prompt]. *)
Definition authorizationParams {RawProfile : Type} (strategy : Strategy.t RawProfile)
    (extraParams : gmap string string) : list (string * string) :=
  [("response_type", "code");
   ("redirect_uri", strategy.(Strategy.opts).(Strategy.callbackURL));
   ("client_id", strategy.(Strategy.opts).(Strategy.clientID))]
  ++ query_param "scope" (extraParams !! "scope")
  ++ query_param "state" (extraParams !! "state")
  ++ query_param "access_type" (extraParams !! "accessType")
  ++ query_param "prompt" (extraParams !! "prompt").

Definition query_string (ps : list (string * string)) : string :=
  String.concat "&" ((λ kv, kv.1 +:+ "=" +:+ kv.2) <$> ps).

(** Modelled from the spec: [buildAuthorizationRequest(extraParams)], the
    redirect to [authorizationUrl] with the query parameters above. *)
Definition buildAuthorizationRequest {RawProfile : Type}
    (strategy : Strategy.t RawProfile) (extraParams : gmap string string)
    : RedirectInfo :=
  {| url := strategy.(Strategy.opts).(Strategy.authorizationURL) +:+ "?" +:+
            query_string (authorizationParams strategy extraParams);
     status := None |}.

(** [contains needle s]: [needle] is a substring of [s]. *)
Definition contains (needle s : string) : Prop :=
  ∃ before after, s = before +:+ needle +:+ after.

(** ** The objects as the client sees them *)










(** ** A provider in front of a given authorization server

    The helpers as the specification describes the strategy adapter, over
    an authorization server whose endpoints are given as functions. *)
Module SpecWorld.

(** The JSON body of the token endpoint. *)
Record TokenResponse : Type := MkTokenResponse {
  access_token : option string;
  refresh_token : option string;
  id_token : option string;
  expires_in : option Z;
  scope : option string;
}.

(** The authorization server: the token endpoint for the two grants and
    the profile endpoint, which answers a bearer token with a JSON
    object. *)
Record Upstream : Type := MkUpstream {
  authorization_code_grant : string → Promise TokenResponse;
  refresh_token_grant : string → string → Promise TokenResponse;
  profile_endpoint : string → Promise (gmap string string);
}.

Definition CallbackError : JsError :=
  {| name := "CallbackError"; message := "missing authorization code" |}.
Definition ExchangeError : JsError :=
  {| name := "ExchangeError"; message := "missing access_token" |}.
Definition RefreshError : JsError :=
  {| name := "RefreshError"; message := "missing access_token" |}.
Definition ConfigError (key : string) : JsError :=
  {| name := "ConfigError"; message := key |}.

Definition params_of (tok : TokenResponse) : Params.t :=
  {| Params.id_token := tok.(id_token);
     Params.scope := tok.(scope);
     Params.expires_in := tok.(expires_in) |}.

(** Modelled from the spec: [makeProfileInfo] extracts [email],
    [displayName] and [picture] from the raw profile, each optional,
    without coercion. *)
Definition makeProfileInfo (rawProfile : gmap string string)
    (idToken : option string) : Promise ProfileInfo :=
  Resolve {| email := rawProfile !! "email";
             displayName := rawProfile !! "displayName";
             picture := rawProfile !! "picture" |}.

(** Modelled from the spec: [exchangeCodeForToken] takes the code of the
    request, exchanges it at the token endpoint, fetches the profile with
    the new access token and completes through the verify callback. *)
Definition executeFrameHandlerStrategy (up : Upstream) (req : option string)
    (strategy : Strategy.t (gmap string string))
    : Promise (OAuthResponse * PrivateInfo) :=
  match req with
  | None => Reject CallbackError
  | Some code =>
      tok ← up.(authorization_code_grant) code;
      match tok.(access_token) with
      | None => Reject ExchangeError
      | Some accessToken =>
          rawProfile ← up.(profile_endpoint) accessToken;
          frame_completion
            (strategy.(Strategy.verify) accessToken tok.(refresh_token)
               (params_of tok) rawProfile)
      end
  end.

(** Modelled from the spec: [exchangeRefreshToken]. *)
Definition executeRefreshTokenStrategy (up : Upstream)
    (strategy : Strategy.t (gmap string string)) (refreshToken scope : string)
    : Promise (string * Params.t) :=
  tok ← up.(refresh_token_grant) refreshToken scope;
  match tok.(access_token) with
  | None => Reject RefreshError
  | Some accessToken => Resolve (accessToken, params_of tok)
  end.

(** Modelled from the spec: [fetchProfile]. *)
Definition executeFetchUserProfileStrategy (up : Upstream)
    (strategy : Strategy.t (gmap string string)) (accessToken : string)
    (idToken : option string) : Promise ProfileInfo :=
  rawProfile ← up.(profile_endpoint) accessToken;
  makeProfileInfo rawProfile idToken.

#[export] Instance helper (up : Upstream)
    : PassportStrategyHelper (option string) (gmap string string) :=
  Build_PassportStrategyHelper _ _
    makeProfileInfo
    (λ _ strategy extraParams,
       Resolve (buildAuthorizationRequest strategy extraParams))
    (executeFrameHandlerStrategy up)
    (executeRefreshTokenStrategy up)
    (executeFetchUserProfileStrategy up).

(** The host of the factory: the environment configuration is a JSON
    object of strings, and the handlers keep what they were built from. *)
Record Handlers : Type := MkHandlers {
  host_config : string;
  host_provider : OAuth2AuthProvider (gmap string string);
  host_options : OAuthProviderOptions unit;
}.

#[export] Instance host (up : Upstream)
    : FactoryHost string (gmap string string) unit Handlers (gmap string string) :=
  {| baseUrl := λ config, config;
     getString := λ envConfig key,
       match envConfig !! key with
       | Some v => Resolve v
       | None => Reject (ConfigError key)
       end;
     OAuthProvider_fromConfig := λ config provider options,
       Resolve (MkHandlers config provider options) |}.

Definition alice_raw : gmap string string :=
  {[ "email" := "alice@example.com" ]}.

Definition alice_profile : ProfileInfo :=
  {| email := Some "alice@example.com"; displayName := None; picture := None |}.

(** Scenario B of the specification, and the same server answering with
    an empty email (scenario D). *)
Definition token_T : TokenResponse :=
  {| access_token := Some "T"; refresh_token := None; id_token := Some "I";
     expires_in := Some 3600%Z; scope := None |}.

Definition alice : Upstream :=
  {| authorization_code_grant := λ _, Resolve token_T;
     refresh_token_grant := λ _ _, Resolve token_T;
     profile_endpoint := λ _, Resolve alice_raw |}.

Definition no_email : Upstream :=
  {| authorization_code_grant := λ _, Resolve token_T;
     refresh_token_grant := λ _ _, Resolve token_T;
     profile_endpoint := λ _, Resolve {[ "email" := EmptyString ]} |}.

(** The same server when it issues the refresh token ["R"]. *)
Definition alice_offline : Upstream :=
  {| authorization_code_grant := λ _,
       Resolve {| access_token := Some "T"; refresh_token := Some "R";
                  id_token := Some "I"; expires_in := Some 3600%Z;
                  scope := Some "read" |};
     refresh_token_grant := λ _ _, Resolve token_T;
     profile_endpoint := λ _, Resolve alice_raw |}.

Definition c1 : OAuth2AuthProviderOptions.t :=
  {| OAuth2AuthProviderOptions.clientId := "c1";
     OAuth2AuthProviderOptions.clientSecret := "s1";
     OAuth2AuthProviderOptions.callbackUrl := "https://app/oauth2/handler/frame";
     OAuth2AuthProviderOptions.authorizationUrl := "https://idp/auth";
     OAuth2AuthProviderOptions.tokenUrl := "https://idp/token" |}.

Definition provider (up : Upstream) : OAuth2AuthProvider (gmap string string) :=
  @new_OAuth2AuthProvider _ _ (helper up) c1.

(** The entry points of that provider. *)
Definition start_at (up : Upstream) :=
  @start _ _ (helper up) (provider up).
Definition handler_at (up : Upstream) :=
  @handler _ _ (helper up) (provider up).
Definition refresh_at (up : Upstream) :=
  @refresh _ _ (helper up) (provider up).

Definition createOAuth2Provider_at (up : Upstream) :=
  @createOAuth2Provider (option string) _ (helper up) _ _ unit _ _ (host up).

Definition envConfig_c1 : gmap string string :=
  {[ "clientId" := "c1"; "clientSecret" := "s1";
     "authorizationUrl" := "https://idp/auth"; "tokenUrl" := "https://idp/token" ]}.

(** Scenario C: the token endpoint answers 401 to both grants. *)
Definition Unauthorized : JsError :=
  {| name := "ExchangeError"; message := "401" |}.

Definition unauthorized : Upstream :=
  {| authorization_code_grant := λ _, Reject Unauthorized;
     refresh_token_grant := λ _ _, Reject Unauthorized;
     profile_endpoint := λ _, Resolve alice_raw |}.



(** An environment configuration without [clientSecret] and [tokenUrl]. *)
Definition envConfig_no_secret : gmap string string :=
  {[ "clientId" := "c1"; "authorizationUrl" := "https://idp/auth" ]}.

End SpecWorld.

(** * Theorems *)

(** ** Facts about [split] *)

Lemma split_nonempty sep s : split sep s ≠ [].
Proof.
  destruct s as [|c s]; simpl; [done|].
  destruct (Ascii.eqb c sep); [done|].
  by destruct (split sep s).
Qed.

Lemma split_head_no_sep sep s :
  occurs sep s = false → split sep s = [s].
Proof.
  induction s as [|c s IH]; simpl; [done|].
  intros [Hc Hs]%orb_false_iff. rewrite Hc, (IH Hs). done.
Qed.

Lemma split_head_spec sep s :
  ∃ p ws, split sep s = p :: ws ∧ occurs sep p = false ∧
    (s = p ∧ ws = [] ∨ ∃ rest, s = p +:+ String sep rest).
Proof.
  induction s as [|c s (p & ws & Hsplit & Hp & Hs)]; simpl.
  - exists EmptyString, []. naive_solver.
  - destruct (Ascii.eqb c sep) eqn:Hc.
    + apply Ascii.eqb_eq in Hc as ->.
      exists EmptyString, (split sep s). split_and!; [done..|]. right. by exists s.
    + rewrite Hsplit. exists (String c p), ws. split_and!; [done|by simpl; rewrite Hc|].
      destruct Hs as [[-> ->]|[rest ->]]; [by left|right]. by exists rest.
Qed.

Lemma index_at_cons c s :
  String.index 0 "@" (String c s) =
    if Ascii.eqb c "@" then Some 0%nat else S <$> String.index 0 "@" s.
Proof.
  cbn [String.index String.prefix].
  destruct (Ascii.ascii_dec "@" c) as [<-|Hne].
  - rewrite Ascii.eqb_refl. by destruct s.
  - destruct (Ascii.eqb_spec c "@") as [->|_]; [done|].
    by destruct (String.index 0 "@" s).
Qed.

Lemma split_head_before_first_at s :
  split "@" s !! 0%nat = Some (before_first_at s).
Proof.
  unfold before_first_at. induction s as [|c s IH]; [done|].
  rewrite index_at_cons. cbn [split].
  destruct (Ascii.eqb c "@") eqn:Hc; [done|].
  destruct (split "@" s) as [|w ws] eqn:Hs; [by apply split_nonempty in Hs|].
  simpl in IH. simpl. destruct (String.index 0 "@" s); simpl in *; by simplify_eq.
Qed.

Lemma before_first_at_spec e :
  occurs "@" (before_first_at e) = false ∧
  (e = before_first_at e ∨ ∃ rest, e = before_first_at e +:+ String "@" rest).
Proof.
  destruct (split_head_spec "@" e) as (p & ws & Hsplit & Hp & He).
  pose proof (split_head_before_first_at e) as Hhead.
  rewrite Hsplit in Hhead. simpl in Hhead. simplify_eq.
  split; [done|]. destruct He as [[He _]|He]; [by left|by right].
Qed.

(** ** Identity resolution *)

Lemma populateIdentity_resolve response e :
  response.(profile).(email) = Some e → e ≠ EmptyString →
  populateIdentity response =
    Resolve (with_backstageIdentity response {| id := Some (before_first_at e) |}).
Proof.
  intros He Hne. unfold populateIdentity. rewrite He.
  destruct e as [|c e]; [done|]. by rewrite split_head_before_first_at.
Qed.

Lemma populateIdentity_reject response :
  response.(profile).(email) = None ∨ response.(profile).(email) = Some EmptyString →
  populateIdentity response = Reject populateIdentity_error.
Proof. unfold populateIdentity. by intros [-> | ->]. Qed.

Lemma populateIdentity_inv response r :
  populateIdentity response = Resolve r →
  ∃ e, response.(profile).(email) = Some e ∧ e ≠ EmptyString ∧
       r = with_backstageIdentity response {| id := Some (before_first_at e) |}.
Proof.
  intros Hr. destruct (email (profile response)) as [e|] eqn:He.
  - destruct (decide (e = EmptyString)) as [->|Hne].
    + rewrite populateIdentity_reject in Hr by (by right). done.
    + rewrite (populateIdentity_resolve _ e) in Hr by done.
      exists e. by simplify_eq.
  - rewrite populateIdentity_reject in Hr by (by left). done.
Qed.

(** C1. For a profile with a non-empty email, [populateIdentity] resolves,
    and the identity it adds is a function of the email alone: its [id] is
    the substring of the email before the first ["@"], which contains no
    ["@"] and is followed in the email by an ["@"] or by nothing. *)
Theorem populateIdentity_id_local_part (response : OAuthResponse) (e : string) :
  response.(profile).(email) = Some e → e ≠ EmptyString →
  ∃ r local,
    populateIdentity response = Resolve r ∧
    r.(backstageIdentity) = Some {| id := Some local |} ∧
    local = before_first_at e ∧
    occurs "@" local = false ∧
    (e = local ∨ ∃ rest, e = local +:+ String "@" rest).
Proof.
  intros He Hne. eexists _, _. split; [by apply populateIdentity_resolve|].
  split; [done|]. split; [done|]. apply before_first_at_spec.
Qed.

Lemma populateIdentity_id_local_part_witness :
  ∃ r local,
    populateIdentity
      {| providerInfo := MkProviderInfo None "T" None None;
         profile := MkProfileInfo (Some "alice@example.com") None None;
         backstageIdentity := None |} = Resolve r ∧
    r.(backstageIdentity) = Some {| id := Some local |} ∧
    local = before_first_at "alice@example.com" ∧
    occurs "@" local = false ∧
    ("alice@example.com" = local ∨ ∃ rest, "alice@example.com" = local +:+ String "@" rest).
Proof. by apply populateIdentity_id_local_part. Defined.

(** C10. For a profile whose email is non-empty and has no ["@"],
    [populateIdentity] resolves and the [id] is the whole email. *)
Theorem populateIdentity_id_without_at (response : OAuthResponse) (e : string) :
  response.(profile).(email) = Some e → e ≠ EmptyString → occurs "@" e = false →
  populateIdentity response =
    Resolve (with_backstageIdentity response {| id := Some e |}).
Proof.
  intros He Hne Hat. unfold populateIdentity. rewrite He.
  destruct e as [|c e]; [done|]. by rewrite (split_head_no_sep _ _ Hat).
Qed.

Lemma populateIdentity_id_without_at_witness :
  populateIdentity
    {| providerInfo := MkProviderInfo None "T" None None;
       profile := MkProfileInfo (Some "alice") None None;
       backstageIdentity := None |} =
  Resolve
    {| providerInfo := MkProviderInfo None "T" None None;
       profile := MkProfileInfo (Some "alice") None None;
       backstageIdentity := Some {| id := Some "alice" |} |}.
Proof.
  exact (populateIdentity_id_without_at
           {| providerInfo := MkProviderInfo None "T" None None;
              profile := MkProfileInfo (Some "alice") None None;
              backstageIdentity := None |}
           "alice" eq_refl ltac:(discriminate) eq_refl).
Defined.

(** ** The entry points *)

Section ProviderFacts.
Context {Request RawProfile : Type} `{!PassportStrategyHelper Request RawProfile}.
Implicit Types (this : OAuth2AuthProvider RawProfile) (req : Request).
Implicit Types (response r : OAuthResponse) (h : HandlerResult.t).

Lemma handler_unfold this req :
  handler this req =
    match executeFrameHandlerStrategy req this.(_strategy) with
    | Resolve (response, privateInfo) =>
        match populateIdentity response with
        | Resolve response' =>
            Resolve {| HandlerResult.response := response';
                       HandlerResult.refreshToken := privateInfo.(refreshToken) |}
        | Reject e => Reject e
        end
    | Reject e => Reject e
    end.
Proof.
  unfold handler, mbind, promise_bind, mret, promise_ret.
  by destruct (executeFrameHandlerStrategy _ _) as [[??]|].
Qed.

Lemma refresh_unfold this refreshToken scope :
  refresh this refreshToken scope =
    match executeRefreshTokenStrategy this.(_strategy) refreshToken scope with
    | Resolve (accessToken, params) =>
        match executeFetchUserProfileStrategy this.(_strategy) accessToken
                params.(Params.id_token) with
        | Resolve profile =>
            populateIdentity
              {| providerInfo :=
                   {| idToken := params.(Params.id_token);
                      accessToken := accessToken;
                      scope := params.(Params.scope);
                      expiresInSeconds := params.(Params.expires_in) |};
                 profile := profile;
                 backstageIdentity := None |}
        | Reject e => Reject e
        end
    | Reject e => Reject e
    end.
Proof.
  unfold refresh, mbind, promise_bind.
  by destruct (executeRefreshTokenStrategy _ _ _) as [[??]|].
Qed.

Lemma handler_inv this req h :
  handler this req = Resolve h →
  ∃ response privateInfo e,
    executeFrameHandlerStrategy req this.(_strategy) = Resolve (response, privateInfo) ∧
    response.(profile).(email) = Some e ∧ e ≠ EmptyString ∧
    h = {| HandlerResult.response :=
             with_backstageIdentity response {| id := Some (before_first_at e) |};
           HandlerResult.refreshToken := privateInfo.(refreshToken) |}.
Proof.
  rewrite handler_unfold.
  destruct (executeFrameHandlerStrategy _ _) as [[response privateInfo]|]; [|done].
  destruct (populateIdentity response) as [response'|] eqn:Hid; [|done].
  intros [= <-]. apply populateIdentity_inv in Hid as (e & ? & ? & ->).
  by exists response, privateInfo, e.
Qed.

Lemma refresh_inv this refreshToken scope r :
  refresh this refreshToken scope = Resolve r →
  ∃ accessToken params profile e,
    executeRefreshTokenStrategy this.(_strategy) refreshToken scope =
      Resolve (accessToken, params) ∧
    executeFetchUserProfileStrategy this.(_strategy) accessToken
      params.(Params.id_token) = Resolve profile ∧
    profile.(email) = Some e ∧ e ≠ EmptyString ∧
    r = {| providerInfo :=
             {| idToken := params.(Params.id_token);
                accessToken := accessToken;
                scope := params.(Params.scope);
                expiresInSeconds := params.(Params.expires_in) |};
           profile := profile;
           backstageIdentity := Some {| id := Some (before_first_at e) |} |}.
Proof.
  rewrite refresh_unfold.
  destruct (executeRefreshTokenStrategy _ _ _) as [[accessToken params]|]; [|done].
  destruct (executeFetchUserProfileStrategy _ _ _) as [profile|] eqn:Hp; [|done].
  intros (e & ? & ? & ->)%populateIdentity_inv.
  by exists accessToken, params, profile, e.
Qed.

Lemma handler_resolve this req response privateInfo e :
  executeFrameHandlerStrategy req this.(_strategy) = Resolve (response, privateInfo) →
  response.(profile).(email) = Some e → e ≠ EmptyString →
  handler this req =
    Resolve {| HandlerResult.response :=
                 with_backstageIdentity response {| id := Some (before_first_at e) |};
               HandlerResult.refreshToken := privateInfo.(refreshToken) |}.
Proof.
  intros Hframe He Hne. rewrite handler_unfold, Hframe.
  by rewrite (populateIdentity_resolve _ e).
Qed.


(** C8. [populateIdentity] leaves [providerInfo] and [profile] as they
    are and only sets [backstageIdentity]; so the [providerInfo] and the
    [profile] in what [handler] and [refresh] resolve with are the ones
    the helpers produced. *)
Theorem populateIdentity_frame :
  (∀ response e,
     response.(profile).(email) = Some e → e ≠ EmptyString →
     ∃ r, populateIdentity response = Resolve r ∧
          r.(providerInfo) = response.(providerInfo) ∧
          r.(profile) = response.(profile) ∧
          is_Some r.(backstageIdentity)) ∧
  (∀ this req h,
     handler this req = Resolve h →
     ∃ response privateInfo,
       executeFrameHandlerStrategy req this.(_strategy) =
         Resolve (response, privateInfo) ∧
       h.(HandlerResult.response).(providerInfo) = response.(providerInfo) ∧
       h.(HandlerResult.response).(profile) = response.(profile)) ∧
  (∀ this refreshToken scope r,
     refresh this refreshToken scope = Resolve r →
     ∃ accessToken params fetched,
       executeRefreshTokenStrategy this.(_strategy) refreshToken scope =
         Resolve (accessToken, params) ∧
       executeFetchUserProfileStrategy this.(_strategy) accessToken
         params.(Params.id_token) = Resolve fetched ∧
       r.(providerInfo) =
         {| idToken := params.(Params.id_token);
            accessToken := accessToken;
            scope := params.(Params.scope);
            expiresInSeconds := params.(Params.expires_in) |} ∧
       r.(profile) = fetched).
Proof.
  split_and!.
  - intros response e He Hne. eexists. split; [by apply populateIdentity_resolve|].
    simpl. eauto.
  - intros this req h (response & privateInfo & e & Hframe & _ & _ & ->)%handler_inv.
    by exists response, privateInfo.
  - intros this rt scope r (at_ & params & prof & e & ? & ? & _ & _ & ->)%refresh_inv.
    by exists at_, params, prof.
Qed.

(** C3, as the code has it. When the profile the helpers produced has no
    email, or an empty one, [handler] and [refresh] are rejected with the
    plain [Error] that [populateIdentity] throws, so neither resolves with
    a response. *)
Theorem handler_refresh_reject_without_email :
  (∀ this req response privateInfo,
     executeFrameHandlerStrategy req this.(_strategy) =
       Resolve (response, privateInfo) →
     response.(profile).(email) = None ∨ response.(profile).(email) = Some EmptyString →
     handler this req = Reject (new_Error "Profile does not contain a profile")) ∧
  (∀ this refreshToken scope accessToken params fetched,
     executeRefreshTokenStrategy this.(_strategy) refreshToken scope =
       Resolve (accessToken, params) →
     executeFetchUserProfileStrategy this.(_strategy) accessToken
       params.(Params.id_token) = Resolve fetched →
     fetched.(email) = None ∨ fetched.(email) = Some EmptyString →
     refresh this refreshToken scope =
       Reject (new_Error "Profile does not contain a profile")).
Proof.
  split.
  - intros this req response privateInfo Hframe Hemail.
    rewrite handler_unfold, Hframe. by rewrite populateIdentity_reject.
  - intros this rt scope at_ params fetched Htok Hprof Hemail.
    rewrite refresh_unfold, Htok, Hprof. by rewrite populateIdentity_reject.
Qed.





(** How [handler] completes when the frame helper runs the exchange and
    hands its outcome to the verify callback of the strategy. *)
Lemma handler_of_verify options req accessToken rt params rawProfile fetched e :
  let this := new_OAuth2AuthProvider options in
  executeFrameHandlerStrategy req this.(_strategy) =
    frame_completion
      (this.(_strategy).(Strategy.verify) accessToken rt params rawProfile) →
  makeProfileInfo rawProfile params.(Params.id_token) = Resolve fetched →
  fetched.(email) = Some e → e ≠ EmptyString →
  handler this req =
    Resolve
      {| HandlerResult.response :=
           {| providerInfo :=
                {| idToken := params.(Params.id_token);
                   accessToken := accessToken;
                   scope := params.(Params.scope);
                   expiresInSeconds := params.(Params.expires_in) |};
              profile := fetched;
              backstageIdentity := Some {| id := Some (before_first_at e) |} |};
         HandlerResult.refreshToken := rt |}.
Proof.
  intros this Hframe Hprof He Hne. rewrite handler_unfold, Hframe.
  unfold frame_completion, this, mbind, promise_bind; simpl.
  unfold verify, mbind, promise_bind. rewrite Hprof; simpl.
  by rewrite (populateIdentity_resolve _ e).
Qed.


(** C6. Scenario B: the token endpoint answered with the access token
    ["T"], the id token ["I"] and [expires_in] 3600, and the profile has
    the email ["alice@example.com"]. Then [handler] resolves with the
    identity ["alice"] and the provider info of these three values. *)
Theorem handler_scenario_B options req rt params rawProfile fetched :
  let this := new_OAuth2AuthProvider options in
  executeFrameHandlerStrategy req this.(_strategy) =
    frame_completion (this.(_strategy).(Strategy.verify) "T" rt params rawProfile) →
  params.(Params.id_token) = Some "I" →
  params.(Params.expires_in) = Some 3600%Z →
  makeProfileInfo rawProfile (Some "I") = Resolve fetched →
  fetched.(email) = Some "alice@example.com" →
  ∃ h, handler this req = Resolve h ∧
       h.(HandlerResult.response).(backstageIdentity) = Some {| id := Some "alice" |} ∧
       h.(HandlerResult.response).(providerInfo) =
         {| idToken := Some "I"; accessToken := "T";
            scope := params.(Params.scope);
            expiresInSeconds := Some 3600%Z |} ∧
       h.(HandlerResult.refreshToken) = rt.
Proof.
  intros this Hframe Hid Hexp Hprof He.
  eexists. split.
  - eapply handler_of_verify; [done| |done..]. by rewrite Hid.
  - simpl. by rewrite Hid, Hexp.
Qed.

(** C9. When the token endpoint sent no refresh token, so that the verify
    callback is called with [undefined] for it, and the profile has a
    non-empty email, [handler] resolves, with [undefined] as its
    [refreshToken]. *)
Theorem handler_without_refresh_token
    options req accessToken params rawProfile fetched e :
  let this := new_OAuth2AuthProvider options in
  executeFrameHandlerStrategy req this.(_strategy) =
    frame_completion
      (this.(_strategy).(Strategy.verify) accessToken None params rawProfile) →
  makeProfileInfo rawProfile params.(Params.id_token) = Resolve fetched →
  fetched.(email) = Some e → e ≠ EmptyString →
  handler this req =
    Resolve
      {| HandlerResult.response :=
           {| providerInfo :=
                {| idToken := params.(Params.id_token);
                   accessToken := accessToken;
                   scope := params.(Params.scope);
                   expiresInSeconds := params.(Params.expires_in) |};
              profile := fetched;
              backstageIdentity := Some {| id := Some (before_first_at e) |} |};
         HandlerResult.refreshToken := None |}.
Proof. apply handler_of_verify. Qed.

(** *** [start] *)

Lemma providerOptions_lookup options k :
  providerOptions options !! k =
    if decide (k = "prompt") then Some "consent"
    else if decide (k = "accessType") then Some "offline"
    else options !! k.
Proof.
  unfold providerOptions. rewrite !lookup_insert.
  repeat case_decide; naive_solver.
Qed.

Lemma providerOptions_insert_accessType options v :
  providerOptions (<["accessType" := v]> options) = providerOptions options.
Proof. unfold providerOptions. by rewrite insert_insert_eq. Qed.

Lemma providerOptions_insert_prompt options v :
  providerOptions (<["prompt" := v]> options) = providerOptions options.
Proof.
  unfold providerOptions.
  rewrite (insert_insert_ne _ "accessType" "prompt") by done.
  by rewrite insert_insert_eq.
Qed.

Lemma append_nil_r s : s +:+ EmptyString = s.
Proof.
  induction s as [|c s IH]; [done|].
  change (String c (s +:+ EmptyString) = String c s). by rewrite IH.
Qed.

Lemma append_assoc s1 s2 s3 : (s1 +:+ s2) +:+ s3 = s1 +:+ s2 +:+ s3.
Proof.
  induction s1 as [|c s1 IH]; [done|].
  change (String c ((s1 +:+ s2) +:+ s3) = String c (s1 +:+ s2 +:+ s3)).
  by rewrite IH.
Qed.

Lemma contains_append_r needle s1 s2 :
  contains needle s2 → contains needle (s1 +:+ s2).
Proof.
  intros (before & after & ->). exists (s1 +:+ before), after.
  by rewrite append_assoc.
Qed.

Lemma contains_query_string k v (ps : list (string * string)) :
  (k, v) ∈ ps → contains (k +:+ "=" +:+ v) (query_string ps).
Proof.
  unfold query_string. induction ps as [|[k' v'] ps IH]; [by intros ?%elem_of_nil|].
  intros [[= <- <-]|Hin]%elem_of_cons.
  - destruct ps as [|p ps]; simpl.
    + exists EmptyString, EmptyString. by rewrite append_nil_r.
    + by exists EmptyString, ("&" +:+ String.concat "&" ((λ kv, kv.1 +:+ "=" +:+ kv.2) <$> p :: ps)).
  - destruct ps as [|p ps]; [by apply elem_of_nil in Hin|].
    change (contains (k +:+ "=" +:+ v)
              ((k' +:+ "=" +:+ v') +:+ "&" +:+
               String.concat "&" ((λ kv, kv.1 +:+ "=" +:+ kv.2) <$> p :: ps))).
    do 2 apply contains_append_r. by apply IH.
Qed.

(** C2. [start] hands the caller's options to the redirect helper with
    [accessType] set to ["offline"] and [prompt] to ["consent"], whatever
    the caller gave for these two, and the other options as they are. With
    the authorization request built as the specification describes it,
    [start] resolves with a redirect whose query parameters have
    [access_type=offline] and [prompt=consent] and no other value for
    either, next to [client_id] and the caller's [scope]. *)
Theorem start_fixed_params this req options :
  (∀ req strategy extraParams,
     executeRedirectStrategy req strategy extraParams =
       Resolve (buildAuthorizationRequest strategy extraParams)) →
  let sent := providerOptions options in
  let ps := authorizationParams this.(_strategy) sent in
  (sent !! "accessType" = Some "offline" ∧ sent !! "prompt" = Some "consent" ∧
   (∀ k, k ≠ "accessType" → k ≠ "prompt" → sent !! k = options !! k) ∧
   (∀ v, start this req (<["accessType" := v]> options) = start this req options) ∧
   (∀ v, start this req (<["prompt" := v]> options) = start this req options)) ∧
  (∃ redirect,
     start this req options = Resolve redirect ∧
     redirect.(url) =
       this.(_strategy).(Strategy.opts).(Strategy.authorizationURL) +:+ "?" +:+
       query_string ps ∧
     contains "access_type=offline" redirect.(url) ∧
     contains "prompt=consent" redirect.(url)) ∧
  (("access_type", "offline") ∈ ps ∧ ("prompt", "consent") ∈ ps ∧
   ("client_id", this.(_strategy).(Strategy.opts).(Strategy.clientID)) ∈ ps ∧
   (∀ s, options !! "scope" = Some s → ("scope", s) ∈ ps) ∧
   (∀ v, ("access_type", v) ∈ ps → v = "offline") ∧
   (∀ v, ("prompt", v) ∈ ps → v = "consent")).
Proof.
  intros Hredirect sent ps.
  assert (Hps : ps =
    ([("response_type", "code");
      ("redirect_uri", this.(_strategy).(Strategy.opts).(Strategy.callbackURL));
      ("client_id", this.(_strategy).(Strategy.opts).(Strategy.clientID))]
     ++ query_param "scope" (options !! "scope")
     ++ query_param "state" (options !! "state")
     ++ [("access_type", "offline"); ("prompt", "consent")])%list).
  { unfold ps, authorizationParams, sent. by rewrite !providerOptions_lookup. }
  assert (Hurl : url (buildAuthorizationRequest this.(_strategy) sent) =
    this.(_strategy).(Strategy.opts).(Strategy.authorizationURL) +:+ "?" +:+
    query_string ps) by done.
  clearbody ps.
  assert (Hat : ("access_type", "offline") ∈ ps).
  { rewrite Hps, !elem_of_app, !elem_of_cons. tauto. }
  assert (Hpr : ("prompt", "consent") ∈ ps).
  { rewrite Hps, !elem_of_app, !elem_of_cons. tauto. }
  split_and!.
  - unfold sent. by rewrite providerOptions_lookup.
  - unfold sent. by rewrite providerOptions_lookup.
  - intros k ??. unfold sent. rewrite providerOptions_lookup.
    by repeat case_decide.
  - intros v. unfold start. by rewrite providerOptions_insert_accessType.
  - intros v. unfold start. by rewrite providerOptions_insert_prompt.
  - exists (buildAuthorizationRequest this.(_strategy) sent).
    split_and!; [apply Hredirect|done|..];
      rewrite Hurl; do 2 apply contains_append_r.
    + by apply (contains_query_string "access_type" "offline").
    + by apply (contains_query_string "prompt" "consent").
  - done.
  - done.
  - rewrite Hps, !elem_of_app, !elem_of_cons. tauto.
  - intros s Hs. rewrite Hps, Hs, !elem_of_app, !elem_of_cons. simpl.
    rewrite elem_of_cons. tauto.
  - intros v. rewrite Hps, !elem_of_app, !elem_of_cons, elem_of_nil.
    destruct (options !! "scope"), (options !! "state"); simpl;
      rewrite ?elem_of_cons, ?elem_of_nil; intuition congruence.
  - intros v. rewrite Hps, !elem_of_app, !elem_of_cons, elem_of_nil.
    destruct (options !! "scope"), (options !! "state"); simpl;
      rewrite ?elem_of_cons, ?elem_of_nil; intuition congruence.
Qed.

End ProviderFacts.

(** An option the provider does not set, such as one spelled [access_type],
    reaches the redirect helper as the caller gave it. *)
Example providerOptions_keeps_access_type :
  providerOptions {[ "access_type" := "online" ]} =
    {[ "access_type" := "online"; "accessType" := "offline"; "prompt" := "consent" ]}.
Proof.
  apply map_eq. intros k. rewrite providerOptions_lookup.
  rewrite !lookup_insert, !lookup_singleton.
  repeat case_decide; simplify_eq; done.
Qed.

(** ** The factory *)

Section FactoryFacts.
Context {Request RawProfile : Type} `{!PassportStrategyHelper Request RawProfile}.
Context {AuthProviderConfig Config Logger TokenIssuer Handlers : Type}
  `{!FactoryHost AuthProviderConfig Config TokenIssuer Handlers RawProfile}.

(** C7. When the environment configuration has the four strings, the
    factory hands [OAuthProvider.fromConfig] a provider whose strategy was
    built from them and from the callback URL
    [baseUrl + "/" + providerId + "/handler/frame"], the provider id being
    ["oauth2"]. *)
Theorem createOAuth2Provider_callbackUrl
    (config : AuthProviderConfig) (env : string) (envConfig : Config)
    (logger : Logger) (issuer : TokenIssuer)
    (clientId clientSecret authorizationUrl tokenUrl : string) :
  getString envConfig "clientId" = Resolve clientId →
  getString envConfig "clientSecret" = Resolve clientSecret →
  getString envConfig "authorizationUrl" = Resolve authorizationUrl →
  getString envConfig "tokenUrl" = Resolve tokenUrl →
  ∃ provider providerId,
    createOAuth2Provider config env envConfig logger issuer =
      OAuthProvider_fromConfig config provider
        {| disableRefresh := false; providerId := providerId;
           tokenIssuer := issuer |} ∧
    providerId = "oauth2" ∧
    provider =
      new_OAuth2AuthProvider
        {| OAuth2AuthProviderOptions.clientId := clientId;
           OAuth2AuthProviderOptions.clientSecret := clientSecret;
           OAuth2AuthProviderOptions.callbackUrl :=
             baseUrl config +:+ "/" +:+ providerId +:+ "/handler/frame";
           OAuth2AuthProviderOptions.authorizationUrl := authorizationUrl;
           OAuth2AuthProviderOptions.tokenUrl := tokenUrl |} ∧
    provider.(_strategy).(Strategy.opts) =
      {| Strategy.clientID := clientId;
         Strategy.clientSecret := clientSecret;
         Strategy.callbackURL :=
           baseUrl config +:+ "/" +:+ providerId +:+ "/handler/frame";
         Strategy.authorizationURL := authorizationUrl;
         Strategy.tokenURL := tokenUrl;
         Strategy.passReqToCallback := false |}.
Proof.
  intros Hid Hsecret Hauth Htoken. eexists _, "oauth2".
  split; [|split; [done|split; [done|]]].
  - unfold createOAuth2Provider, mbind, promise_bind.
    by rewrite Hid, Hsecret, Hauth, Htoken.
  - done.
Qed.

(** A field [getString] throws for makes the factory throw. *)
Lemma createOAuth2Provider_required
    (config : AuthProviderConfig) (env : string) (envConfig : Config)
    (logger : Logger) (issuer : TokenIssuer) (key : string) (e : JsError) :
  key ∈ ["clientId"; "clientSecret"; "authorizationUrl"; "tokenUrl"] →
  getString envConfig key = Reject e →
  ∃ e', createOAuth2Provider config env envConfig logger issuer = Reject e'.
Proof.
  intros Hkey He. unfold createOAuth2Provider, mbind, promise_bind.
  destruct (getString envConfig "clientId") eqn:H1; [|by eauto].
  destruct (getString envConfig "clientSecret") eqn:H2; [|by eauto].
  destruct (getString envConfig "authorizationUrl") eqn:H3; [|by eauto].
  destruct (getString envConfig "tokenUrl") eqn:H4; [|by eauto].
  rewrite !elem_of_cons, elem_of_nil in Hkey.
  destruct Hkey as [->|[->|[->|[->|[]]]]]; congruence.
Qed.

End FactoryFacts.

(** ** The scenarios of the specification *)

Lemma populateIdentity_frame_witness :
  (∃ r, populateIdentity (MkOAuthResponse (MkProviderInfo None "T" None None)
                            SpecWorld.alice_profile None) = Resolve r ∧
        r.(providerInfo) = MkProviderInfo None "T" None None ∧
        r.(profile) = SpecWorld.alice_profile ∧ is_Some r.(backstageIdentity)) ∧
  (∃ response privateInfo,
     SpecWorld.executeFrameHandlerStrategy SpecWorld.alice_offline (Some "abc123")
       (SpecWorld.provider SpecWorld.alice_offline).(_strategy) =
       Resolve (response, privateInfo) ∧
     response.(providerInfo) =
       MkProviderInfo (Some "I") "T" (Some "read") (Some 3600%Z) ∧
     response.(profile) = SpecWorld.alice_profile) ∧
  (∃ fetched,
     SpecWorld.executeFetchUserProfileStrategy SpecWorld.alice_offline
       (SpecWorld.provider SpecWorld.alice_offline).(_strategy) "T" (Some "I") =
       Resolve fetched ∧
     fetched = SpecWorld.alice_profile).
Proof.
  destruct (@populateIdentity_frame _ _ (SpecWorld.helper SpecWorld.alice_offline))
    as (Hid & Hh & Hr).
  split_and!.
  - exact (Hid (MkOAuthResponse (MkProviderInfo None "T" None None)
                  SpecWorld.alice_profile None)
             "alice@example.com" eq_refl ltac:(discriminate)).
  - destruct (Hh (SpecWorld.provider SpecWorld.alice_offline) (Some "abc123")
                {| HandlerResult.response :=
                     MkOAuthResponse
                       (MkProviderInfo (Some "I") "T" (Some "read") (Some 3600%Z))
                       SpecWorld.alice_profile (Some {| id := Some "alice" |});
                   HandlerResult.refreshToken := Some "R" |})
      as (response & privateInfo & Hframe & Hinfo & Hprofile);
      [vm_compute; reflexivity|].
    exists response, privateInfo. simpl in Hinfo, Hprofile. by rewrite Hinfo, Hprofile.
  - destruct (Hr (SpecWorld.provider SpecWorld.alice_offline) "R" "read"
                (MkOAuthResponse (MkProviderInfo (Some "I") "T" None (Some 3600%Z))
                   SpecWorld.alice_profile (Some {| id := Some "alice" |})))
      as (accessToken & params & fetched & Htok & Hprof & _ & Hfetched);
      [vm_compute; reflexivity|].
    vm_compute in Hprof. simplify_eq/=. by exists SpecWorld.alice_profile.
Defined.

(** Scenario D: the profile endpoint answers with an empty email. Both
    entry points are rejected with the plain [Error] of [populateIdentity]. *)
Lemma handler_refresh_reject_without_email_witness :
  SpecWorld.handler_at SpecWorld.no_email (Some "abc123") =
    Reject (new_Error "Profile does not contain a profile") ∧
  SpecWorld.refresh_at SpecWorld.no_email "R" "read" =
    Reject (new_Error "Profile does not contain a profile").
Proof.
  destruct (@handler_refresh_reject_without_email _ _
              (SpecWorld.helper SpecWorld.no_email)) as (Hh & Hr).
  split.
  - apply (Hh (SpecWorld.provider SpecWorld.no_email) (Some "abc123")
             (MkOAuthResponse (MkProviderInfo (Some "I") "T" None (Some 3600%Z))
                (MkProfileInfo (Some EmptyString) None None) None)
             (MkPrivateInfo None)); [vm_compute; reflexivity|by right].
  - apply (Hr (SpecWorld.provider SpecWorld.no_email) "R" "read" "T"
             (SpecWorld.params_of SpecWorld.token_T)
             (MkProfileInfo (Some EmptyString) None None));
      [vm_compute; reflexivity..|by right].
Defined.

(** The error of scenario D is not the [IdentityResolutionError] of the
    specification: its class is [Error] and its message is another. *)
Lemma missing_email_error_is_not_IdentityResolutionError :
  SpecWorld.handler_at SpecWorld.no_email (Some "abc123") ≠
    Reject (IdentityResolutionError "missing email") ∧
  SpecWorld.refresh_at SpecWorld.no_email "R" "read" ≠
    Reject (IdentityResolutionError "missing email").
Proof. split; vm_compute; discriminate. Qed.



(** Scenario B, with the spec's adapter in front of the server. *)
Lemma handler_scenario_B_witness :
  ∃ h, SpecWorld.handler_at SpecWorld.alice (Some "abc123") = Resolve h ∧
       h.(HandlerResult.response).(backstageIdentity) = Some {| id := Some "alice" |} ∧
       h.(HandlerResult.response).(providerInfo) =
         {| idToken := Some "I"; accessToken := "T"; scope := None;
            expiresInSeconds := Some 3600%Z |} ∧
       h.(HandlerResult.refreshToken) = None.
Proof.
  apply (@handler_scenario_B _ _ (SpecWorld.helper SpecWorld.alice) SpecWorld.c1
           (Some "abc123") None (SpecWorld.params_of SpecWorld.token_T)
           SpecWorld.alice_raw SpecWorld.alice_profile); vm_compute; reflexivity.
Defined.

Lemma handler_without_refresh_token_witness :
  SpecWorld.handler_at SpecWorld.alice (Some "abc123") =
    Resolve
      {| HandlerResult.response :=
           MkOAuthResponse (MkProviderInfo (Some "I") "T" None (Some 3600%Z))
             SpecWorld.alice_profile (Some {| id := Some "alice" |});
         HandlerResult.refreshToken := None |}.
Proof.
  apply (@handler_without_refresh_token _ _ (SpecWorld.helper SpecWorld.alice)
           SpecWorld.c1 (Some "abc123") "T" (SpecWorld.params_of SpecWorld.token_T)
           SpecWorld.alice_raw SpecWorld.alice_profile "alice@example.com");
    [vm_compute; reflexivity..|discriminate].
Defined.

(** The factory on the configuration of scenario A, at the base URL
    ["https://app"]. *)
Lemma createOAuth2Provider_callbackUrl_witness :
  ∃ provider,
    SpecWorld.createOAuth2Provider_at SpecWorld.alice "https://app" "development"
      SpecWorld.envConfig_c1 tt tt =
      Resolve (SpecWorld.MkHandlers "https://app" provider
                 {| disableRefresh := false; providerId := "oauth2";
                    tokenIssuer := tt |}) ∧
    provider.(_strategy).(Strategy.opts) =
      {| Strategy.clientID := "c1";
         Strategy.clientSecret := "s1";
         Strategy.callbackURL := "https://app/oauth2/handler/frame";
         Strategy.authorizationURL := "https://idp/auth";
         Strategy.tokenURL := "https://idp/token";
         Strategy.passReqToCallback := false |}.
Proof.
  destruct (@createOAuth2Provider_callbackUrl (option string) _
              (SpecWorld.helper SpecWorld.alice) _ _ unit _ _
              (SpecWorld.host SpecWorld.alice)
              "https://app" "development" SpecWorld.envConfig_c1 tt tt
              "c1" "s1" "https://idp/auth" "https://idp/token")
    as (provider & providerId & Hcreate & -> & _ & Hopts);
    [vm_compute; reflexivity..|].
  exists provider. split; [exact Hcreate|exact Hopts].
Defined.

(** Scenario A: [start({scope: "read"})] for the client ["c1"]. *)
Lemma start_fixed_params_witness :
  ∃ redirect,
    SpecWorld.start_at SpecWorld.alice None {[ "scope" := "read" ]} =
      Resolve redirect ∧
    redirect.(url) =
      "https://idp/auth?response_type=code&redirect_uri=https://app/oauth2/handler/frame&client_id=c1&scope=read&access_type=offline&prompt=consent" ∧
    SpecWorld.start_at SpecWorld.alice None
      (<["accessType" := "online"]> {[ "scope" := "read" ]}) = Resolve redirect ∧
    SpecWorld.start_at SpecWorld.alice None
      (<["prompt" := "none"]> {[ "scope" := "read" ]}) = Resolve redirect.
Proof.
  destruct (@start_fixed_params _ _ (SpecWorld.helper SpecWorld.alice)
              (SpecWorld.provider SpecWorld.alice) None {[ "scope" := "read" ]}
              (λ _ _ _, eq_refl))
    as ((_ & _ & _ & HaccessType & Hprompt) & (redirect & Hstart & Hurl & _) & _).
  exists redirect. split_and!.
  - exact Hstart.
  - rewrite Hurl. vm_compute. reflexivity.
  - unfold SpecWorld.start_at. rewrite HaccessType. exact Hstart.
  - unfold SpecWorld.start_at. rewrite Hprompt. exact Hstart.
Defined.

(** * Further properties of the provider *)

(** ** [split] and the identity *)

Lemma split_app_sep sep p rest :
  occurs sep p = false →
  split sep (p +:+ String sep rest) = p :: split sep rest.
Proof.
  induction p as [|c p IH]; intros Hp.
  - change (split sep (String sep rest) = EmptyString :: split sep rest).
    cbn [split]. by rewrite Ascii.eqb_refl.
  - cbn [occurs] in Hp. apply orb_false_iff in Hp as [Hc Hp].
    change (split sep (String c (p +:+ String sep rest)) =
            String c p :: split sep rest).
    cbn [split]. by rewrite Hc, (IH Hp).
Qed.

Lemma before_first_at_app local domain :
  occurs "@" local = false →
  before_first_at (local +:+ String "@" domain) = local.
Proof.
  intros Hlocal.
  pose proof (split_head_before_first_at (local +:+ String "@" domain)) as Hhead.
  rewrite (split_app_sep _ _ _ Hlocal) in Hhead. by simplify_eq/=.
Qed.

Lemma append_at_nonempty local domain : local +:+ String "@" domain ≠ EmptyString.
Proof. by destruct local. Qed.

Lemma populateIdentity_reject_inv response e :
  populateIdentity response = Reject e →
  (response.(profile).(email) = None ∨
   response.(profile).(email) = Some EmptyString) ∧
  e = populateIdentity_error.
Proof.
  unfold populateIdentity.
  destruct (email (profile response)) as [[|c s]|]; intros [= <-]; eauto.
Qed.

(** X7. Joining the pieces of [split] with the separator gives the string
    back, and no piece contains the separator. *)
Theorem split_concat sep s :
  String.concat (String sep EmptyString) (split sep s) = s ∧
  Forall (λ w, occurs sep w = false) (split sep s).
Proof.
  induction s as [|c s [IHjoin IHpieces]]; [by repeat constructor|].
  cbn [split]. destruct (split sep s) as [|w ws] eqn:Hs;
    [by apply split_nonempty in Hs|].
  destruct (Ascii.eqb c sep) eqn:Hc.
  - apply Ascii.eqb_eq in Hc as ->. split; [|by constructor].
    change (String sep (String.concat (String sep EmptyString) (w :: ws)) =
            String sep s).
    by rewrite IHjoin.
  - apply Forall_cons in IHpieces as [Hw Hws]. split.
    + rewrite <-IHjoin. by destruct ws.
    + constructor; [by cbn [occurs]; rewrite Hc, Hw|done].
Qed.

(** X4. [populateIdentity] looks at the local part only: two profiles whose
    emails have the same local part and any two domains get the same
    identity. *)
Theorem populateIdentity_ignores_domain
    (response1 response2 : OAuthResponse) (local domain1 domain2 : string) :
  occurs "@" local = false →
  response1.(profile).(email) = Some (local +:+ String "@" domain1) →
  response2.(profile).(email) = Some (local +:+ String "@" domain2) →
  ∃ r1 r2,
    populateIdentity response1 = Resolve r1 ∧
    populateIdentity response2 = Resolve r2 ∧
    r1.(backstageIdentity) = Some {| id := Some local |} ∧
    r2.(backstageIdentity) = r1.(backstageIdentity).
Proof.
  intros Hlocal He1 He2. eexists _, _.
  rewrite (populateIdentity_resolve _ _ He1 (append_at_nonempty _ _)).
  rewrite (populateIdentity_resolve _ _ He2 (append_at_nonempty _ _)).
  split_and!; [done..| |]; simpl; by rewrite !before_first_at_app.
Qed.

Lemma populateIdentity_ignores_domain_witness :
  ∃ r1 r2,
    populateIdentity
      (MkOAuthResponse (MkProviderInfo None "T" None None)
         (MkProfileInfo (Some "alice@example.com") None None) None) = Resolve r1 ∧
    populateIdentity
      (MkOAuthResponse (MkProviderInfo None "U" None None)
         (MkProfileInfo (Some "alice@evil.test") None None) None) = Resolve r2 ∧
    r1.(backstageIdentity) = Some {| id := Some "alice" |} ∧
    r2.(backstageIdentity) = r1.(backstageIdentity).
Proof.
  exact (populateIdentity_ignores_domain
           (MkOAuthResponse (MkProviderInfo None "T" None None)
              (MkProfileInfo (Some "alice@example.com") None None) None)
           (MkOAuthResponse (MkProviderInfo None "U" None None)
              (MkProfileInfo (Some "alice@evil.test") None None) None)
           "alice" "example.com" "evil.test" eq_refl eq_refl eq_refl).
Defined.

(** X5. For a non-empty email, the identity that [populateIdentity] adds has
    the empty [id] exactly when the email begins with ["@"]. *)
Theorem populateIdentity_empty_id (response : OAuthResponse) (e : string) :
  response.(profile).(email) = Some e → e ≠ EmptyString →
  (∃ r, populateIdentity response = Resolve r ∧
        r.(backstageIdentity) = Some {| id := Some EmptyString |}) ↔
  (∃ rest, e = String "@" rest).
Proof.
  intros He Hne. rewrite (populateIdentity_resolve _ _ He Hne). split.
  - intros (r & [= <-] & [= Hid]).
    destruct (before_first_at_spec e) as [_ [Hall|[rest Hrest]]].
    + by rewrite Hid in Hall.
    + rewrite Hid in Hrest. by exists rest.
  - intros [rest ->]. eexists. split; [done|]. simpl.
    by rewrite (before_first_at_app EmptyString rest eq_refl
                  : before_first_at (String "@" rest) = EmptyString).
Qed.

Lemma populateIdentity_empty_id_witness :
  ∃ r, populateIdentity
         (MkOAuthResponse (MkProviderInfo None "T" None None)
            (MkProfileInfo (Some "@example.com") None None) None) = Resolve r ∧
       r.(backstageIdentity) = Some {| id := Some EmptyString |}.
Proof.
  apply (populateIdentity_empty_id
           (MkOAuthResponse (MkProviderInfo None "T" None None)
              (MkProfileInfo (Some "@example.com") None None) None)
           "@example.com" eq_refl ltac:(discriminate)).
  by exists "example.com".
Defined.

(** X6. [populateIdentity] is idempotent, and an identity that the response
    already carries is replaced, not consulted. *)
Theorem populateIdentity_idempotent (response r : OAuthResponse) :
  populateIdentity response = Resolve r →
  populateIdentity r = Resolve r ∧
  ∀ b, populateIdentity (with_backstageIdentity response b) = Resolve r.
Proof.
  intros (e & He & Hne & ->)%populateIdentity_inv. split.
  - by rewrite (populateIdentity_resolve _ e).
  - intros b. by rewrite (populateIdentity_resolve _ e).
Qed.

Lemma populateIdentity_idempotent_witness :
  let r := MkOAuthResponse (MkProviderInfo None "T" None None)
             (MkProfileInfo (Some "alice@example.com") None None)
             (Some {| id := Some "alice" |}) in
  populateIdentity r = Resolve r ∧
  ∀ b, populateIdentity
         (with_backstageIdentity
            (MkOAuthResponse (MkProviderInfo None "T" None None)
               (MkProfileInfo (Some "alice@example.com") None None) None) b) =
       Resolve r.
Proof.
  exact (populateIdentity_idempotent
           (MkOAuthResponse (MkProviderInfo None "T" None None)
              (MkProfileInfo (Some "alice@example.com") None None) None)
           _ eq_refl).
Defined.

(** ** Outcomes of the entry points *)

Section ProviderOutcomes.
Context {Request RawProfile : Type} `{!PassportStrategyHelper Request RawProfile}.
Implicit Types (this : OAuth2AuthProvider RawProfile) (req : Request).
Implicit Types (response r : OAuthResponse) (h : HandlerResult.t).

(** X1. [handler] is rejected in two ways only: with the error of the frame
    helper, unchanged, or, when the helper resolved with a profile that has
    no email, with the error of [populateIdentity]. *)
Theorem handler_reject_iff this req e :
  handler this req = Reject e ↔
  executeFrameHandlerStrategy req this.(_strategy) = Reject e ∨
  ∃ response privateInfo,
    executeFrameHandlerStrategy req this.(_strategy) =
      Resolve (response, privateInfo) ∧
    (response.(profile).(email) = None ∨
     response.(profile).(email) = Some EmptyString) ∧
    e = new_Error "Profile does not contain a profile".
Proof.
  rewrite handler_unfold.
  destruct (executeFrameHandlerStrategy _ _) as [[response privateInfo]|e'].
  - destruct (populateIdentity response) as [r|e'] eqn:Hid.
    + split; [done|]. intros [?|(? & ? & [= <- <-] & Hemail & _)]; [done|].
      by rewrite populateIdentity_reject in Hid.
    + apply populateIdentity_reject_inv in Hid as [Hemail ->]. split.
      * intros [= <-]. right. by exists response, privateInfo.
      * intros [?|(? & ? & _ & _ & ->)]; done.
  - split; [intros [= <-]; by left|]. by intros [[= <-]|(? & ? & ? & _)].
Qed.

(** X2. [refresh] is rejected in three ways only: with the error of the
    refresh-token helper, with the error of the profile helper after a
    successful exchange, or with the error of [populateIdentity] when the
    fetched profile has no email. *)
Theorem refresh_reject_iff this refreshToken scope e :
  refresh this refreshToken scope = Reject e ↔
  executeRefreshTokenStrategy this.(_strategy) refreshToken scope = Reject e ∨
  ∃ accessToken params,
    executeRefreshTokenStrategy this.(_strategy) refreshToken scope =
      Resolve (accessToken, params) ∧
    (executeFetchUserProfileStrategy this.(_strategy) accessToken
       params.(Params.id_token) = Reject e ∨
     ∃ fetched,
       executeFetchUserProfileStrategy this.(_strategy) accessToken
         params.(Params.id_token) = Resolve fetched ∧
       (fetched.(email) = None ∨ fetched.(email) = Some EmptyString) ∧
       e = new_Error "Profile does not contain a profile").
Proof.
  rewrite refresh_unfold.
  destruct (executeRefreshTokenStrategy _ _ _) as [[accessToken params]|e'].
  - destruct (executeFetchUserProfileStrategy _ _ _) as [fetched|e'] eqn:Hp.
    + split.
      * intros [Hemail ->]%populateIdentity_reject_inv. right.
        exists accessToken, params. split; [done|]. right. by exists fetched.
      * intros [?|(at_ & ps & [= <- <-] & Hcases)]; [done|].
        rewrite Hp in Hcases.
        destruct Hcases as [?|(? & [= <-] & Hemail & ->)]; [done|].
        by rewrite populateIdentity_reject.
    + split.
      * intros [= <-]. right. exists accessToken, params. split; [done|]. by left.
      * intros [?|(at_ & ps & [= <- <-] & Hcases)]; [done|].
        rewrite Hp in Hcases. by destruct Hcases as [[= <-]|(? & ? & _)].
  - split; [intros [= <-]; by left|]. by intros [[= <-]|(? & ? & ? & _)].
Qed.

(** X3. A response that [handler] or [refresh] resolves with always carries an
    identity: its profile has a non-empty email, and [backstageIdentity] is
    set, with an [id] that is defined and has no ["@"]. *)
Theorem resolved_response_has_identity :
  (∀ this req h,
     handler this req = Resolve h →
     ∃ e local,
       h.(HandlerResult.response).(profile).(email) = Some e ∧
       e ≠ EmptyString ∧
       h.(HandlerResult.response).(backstageIdentity) =
         Some {| id := Some local |} ∧
       local = before_first_at e ∧ occurs "@" local = false) ∧
  (∀ this refreshToken scope r,
     refresh this refreshToken scope = Resolve r →
     ∃ e local,
       r.(profile).(email) = Some e ∧ e ≠ EmptyString ∧
       r.(backstageIdentity) = Some {| id := Some local |} ∧
       local = before_first_at e ∧ occurs "@" local = false).
Proof.
  split.
  - intros this req h (response & privateInfo & e & _ & He & Hne & ->)%handler_inv.
    exists e, (before_first_at e). split_and!; [done..|].
    apply before_first_at_spec.
  - intros this rt scope r
      (at_ & params & fetched & e & _ & _ & He & Hne & ->)%refresh_inv.
    exists e, (before_first_at e). split_and!; [done..|].
    apply before_first_at_spec.
Qed.

(** The verify callback never reports an error through [done] and never
    sets an identity: it throws what [makeProfileInfo] throws, and
    otherwise calls [done] with no error, a response without
    [backstageIdentity] whose profile is the one [makeProfileInfo] made from
    the raw profile and the id token, and the refresh token apart from the
    response. *)
Theorem verify_outcome accessToken (rt : option string) params
    (rawProfile : RawProfile) :
  match makeProfileInfo rawProfile params.(Params.id_token) with
  | Reject e => verify accessToken rt params rawProfile = Reject e
  | Resolve made =>
      ∃ d, verify accessToken rt params rawProfile = Resolve d ∧
           d.(err) = None ∧
           d.(result).(backstageIdentity) = None ∧
           d.(result).(profile) = made ∧
           d.(result).(providerInfo) =
             {| idToken := params.(Params.id_token);
                accessToken := accessToken;
                scope := params.(Params.scope);
                expiresInSeconds := params.(Params.expires_in) |} ∧
           d.(info).(refreshToken) = rt
  end.
Proof.
  unfold verify, mbind, promise_bind.
  destruct (makeProfileInfo _ _) as [made|e]; [|done].
  eexists. by split_and!.
Qed.

(** X8. Login and renewal agree: when the frame helper completes through the
    verify callback with the access token, the [params] and the profile
    that the refresh helpers yield, [handler] resolves with exactly the
    response of [refresh], next to the refresh token, and is rejected with
    the same error when [refresh] is. *)
Theorem handler_refresh_same_response options req rt refreshToken scope
    accessToken params (rawProfile : RawProfile) fetched :
  let this := new_OAuth2AuthProvider options in
  executeFrameHandlerStrategy req this.(_strategy) =
    frame_completion
      (this.(_strategy).(Strategy.verify) accessToken rt params rawProfile) →
  makeProfileInfo rawProfile params.(Params.id_token) = Resolve fetched →
  executeRefreshTokenStrategy this.(_strategy) refreshToken scope =
    Resolve (accessToken, params) →
  executeFetchUserProfileStrategy this.(_strategy) accessToken
    params.(Params.id_token) = Resolve fetched →
  handler this req =
    match refresh this refreshToken scope with
    | Resolve r =>
        Resolve {| HandlerResult.response := r; HandlerResult.refreshToken := rt |}
    | Reject e => Reject e
    end.
Proof.
  intros this Hframe Hmake Htok Hprof.
  rewrite handler_unfold, refresh_unfold, Hframe, Htok, Hprof.
  unfold frame_completion, this, mbind, promise_bind; simpl.
  unfold verify, mbind, promise_bind. rewrite Hmake; simpl.
  by destruct (populateIdentity _).
Qed.

(** X10. Two option records that differ in [accessType] and [prompt] only are
    the same to [start]. *)
Theorem start_agree this req (options1 options2 : gmap string string) :
  (∀ k, k ≠ "accessType" → k ≠ "prompt" → options1 !! k = options2 !! k) →
  start this req options1 = start this req options2.
Proof.
  intros Hagree. unfold start. f_equal. apply map_eq. intros k.
  rewrite !providerOptions_lookup. repeat case_decide; auto.
Qed.

End ProviderOutcomes.

(** ** Outcomes of the factory *)

Section FactoryOutcomes.
Context {Request RawProfile : Type} `{!PassportStrategyHelper Request RawProfile}.
Context {AuthProviderConfig Config Logger TokenIssuer Handlers : Type}
  `{!FactoryHost AuthProviderConfig Config TokenIssuer Handlers RawProfile}.

(** X11. The factory throws exactly the error of the first of [clientId],
    [clientSecret], [authorizationUrl] and [tokenUrl], in this order, that
    [getString] throws for, and with all four read, the error of
    [OAuthProvider.fromConfig]. *)
Theorem createOAuth2Provider_reject_iff
    (config : AuthProviderConfig) (env : string) (envConfig : Config)
    (logger : Logger) (issuer : TokenIssuer) (e : JsError) :
  createOAuth2Provider config env envConfig logger issuer = Reject e ↔
  getString envConfig "clientId" = Reject e ∨
  ∃ clientId, getString envConfig "clientId" = Resolve clientId ∧
  (getString envConfig "clientSecret" = Reject e ∨
   ∃ clientSecret, getString envConfig "clientSecret" = Resolve clientSecret ∧
   (getString envConfig "authorizationUrl" = Reject e ∨
    ∃ authorizationUrl,
      getString envConfig "authorizationUrl" = Resolve authorizationUrl ∧
    (getString envConfig "tokenUrl" = Reject e ∨
     ∃ tokenUrl, getString envConfig "tokenUrl" = Resolve tokenUrl ∧
       OAuthProvider_fromConfig config
         (new_OAuth2AuthProvider
            {| OAuth2AuthProviderOptions.clientId := clientId;
               OAuth2AuthProviderOptions.clientSecret := clientSecret;
               OAuth2AuthProviderOptions.callbackUrl :=
                 baseUrl config +:+ "/oauth2/handler/frame";
               OAuth2AuthProviderOptions.authorizationUrl := authorizationUrl;
               OAuth2AuthProviderOptions.tokenUrl := tokenUrl |})
         {| disableRefresh := false; providerId := "oauth2";
            tokenIssuer := issuer |} = Reject e))).
Proof.
  unfold createOAuth2Provider, mbind, promise_bind.
  destruct (getString envConfig "clientId") as [a|e1].
  2: { split; [intros [= <-]; by left|]. by intros [[= <-]|(? & ? & _)]. }
  destruct (getString envConfig "clientSecret") as [b|e2].
  2: { split; [intros [= <-]; right; exists a; split; [done|by left]|].
       intros [?|(? & _ & [[= <-]|(? & ? & _)])]; done. }
  destruct (getString envConfig "authorizationUrl") as [c|e3].
  2: { split.
       - intros [= <-]. right. exists a. split; [done|]. right. exists b.
         split; [done|by left].
       - intros [?|(? & _ & [?|(? & _ & [[= <-]|(? & ? & _)])])]; done. }
  destruct (getString envConfig "tokenUrl") as [d|e4].
  2: { split.
       - intros [= <-]. right. exists a. split; [done|]. right. exists b.
         split; [done|]. right. exists c. split; [done|by left].
       - intros [?|(? & _ & [?|(? & _ & [?|(? & _ & [[= <-]|(? & ? & _)])])])];
           done. }
  split.
  - intros Hfrom. right. exists a. split; [done|]. right. exists b.
    split; [done|]. right. exists c. split; [done|]. right. by exists d.
  - intros [?|(? & [= <-] & [?|(? & [= <-] & [?|(? & [= <-] &
             [?|(? & [= <-] & Hfrom)])])])]; done.
Qed.

(** X12. The base URL is used as it is: when it ends with a slash, the callback
    URL of the strategy has two slashes before [oauth2]. *)
Theorem createOAuth2Provider_trailing_slash
    (config : AuthProviderConfig) (env : string) (envConfig : Config)
    (logger : Logger) (issuer : TokenIssuer)
    (clientId clientSecret authorizationUrl tokenUrl base : string) :
  getString envConfig "clientId" = Resolve clientId →
  getString envConfig "clientSecret" = Resolve clientSecret →
  getString envConfig "authorizationUrl" = Resolve authorizationUrl →
  getString envConfig "tokenUrl" = Resolve tokenUrl →
  baseUrl config = base +:+ "/" →
  ∃ provider,
    createOAuth2Provider config env envConfig logger issuer =
      OAuthProvider_fromConfig config provider
        {| disableRefresh := false; providerId := "oauth2";
           tokenIssuer := issuer |} ∧
    provider.(_strategy).(Strategy.opts).(Strategy.callbackURL) =
      base +:+ "//oauth2/handler/frame".
Proof.
  intros Hid Hsecret Hauth Htoken Hbase. eexists. split.
  - unfold createOAuth2Provider, mbind, promise_bind.
    by rewrite Hid, Hsecret, Hauth, Htoken.
  - simpl. by rewrite Hbase, append_assoc.
Qed.

End FactoryOutcomes.

(** ** Further scenarios *)

(** Scenario C: the 401 of the token endpoint is what [handler] is
    rejected with. *)
Lemma handler_reject_iff_witness :
  SpecWorld.handler_at SpecWorld.unauthorized (Some "abc123") =
    Reject SpecWorld.Unauthorized.
Proof.
  apply (@handler_reject_iff _ _ (SpecWorld.helper SpecWorld.unauthorized)).
  left. vm_compute. reflexivity.
Defined.

Lemma refresh_reject_iff_witness :
  SpecWorld.refresh_at SpecWorld.unauthorized "R" "read" =
    Reject SpecWorld.Unauthorized.
Proof.
  apply (@refresh_reject_iff _ _ (SpecWorld.helper SpecWorld.unauthorized)).
  left. vm_compute. reflexivity.
Defined.

Lemma resolved_response_has_identity_witness :
  ∃ h e local,
    SpecWorld.handler_at SpecWorld.alice (Some "abc123") = Resolve h ∧
    h.(HandlerResult.response).(profile).(email) = Some e ∧
    e ≠ EmptyString ∧
    h.(HandlerResult.response).(backstageIdentity) = Some {| id := Some local |} ∧
    occurs "@" local = false.
Proof.
  destruct (@resolved_response_has_identity _ _
              (SpecWorld.helper SpecWorld.alice)) as [Hh _].
  destruct (Hh (SpecWorld.provider SpecWorld.alice) (Some "abc123")
              {| HandlerResult.response :=
                   MkOAuthResponse (MkProviderInfo (Some "I") "T" None (Some 3600%Z))
                     SpecWorld.alice_profile (Some {| id := Some "alice" |});
                 HandlerResult.refreshToken := None |})
    as (e & local & He & Hne & Hid & _ & Hat); [vm_compute; reflexivity|].
  eexists _, e, local. split; [vm_compute; reflexivity|]. by split_and!.
Defined.

Lemma handler_refresh_same_response_witness :
  SpecWorld.handler_at SpecWorld.alice (Some "abc123") =
    match SpecWorld.refresh_at SpecWorld.alice "R" "read" with
    | Resolve r =>
        Resolve {| HandlerResult.response := r;
                   HandlerResult.refreshToken := None |}
    | Reject e => Reject e
    end.
Proof.
  apply (@handler_refresh_same_response _ _ (SpecWorld.helper SpecWorld.alice)
           SpecWorld.c1 (Some "abc123") None "R" "read" "T"
           (SpecWorld.params_of SpecWorld.token_T) SpecWorld.alice_raw
           SpecWorld.alice_profile); vm_compute; reflexivity.
Defined.

Lemma start_agree_witness :
  SpecWorld.start_at SpecWorld.alice None
    (<["accessType" := "online"]> {[ "scope" := "read" ]}) =
  SpecWorld.start_at SpecWorld.alice None
    (<["prompt" := "none"]> {[ "scope" := "read" ]}).
Proof.
  apply (@start_agree _ _ (SpecWorld.helper SpecWorld.alice)).
  intros k HaccessType Hprompt. by rewrite !lookup_insert_ne.
Defined.

(** The configuration lacks [clientSecret] and [tokenUrl]: the factory
    throws for [clientSecret], the first of the two it reads. *)
Lemma createOAuth2Provider_reject_iff_witness :
  SpecWorld.createOAuth2Provider_at SpecWorld.alice "https://app" "development"
    SpecWorld.envConfig_no_secret tt tt =
    Reject (SpecWorld.ConfigError "clientSecret").
Proof.
  apply (@createOAuth2Provider_reject_iff (option string) _
           (SpecWorld.helper SpecWorld.alice) _ _ unit _ _
           (SpecWorld.host SpecWorld.alice)).
  right. exists "c1". split; [vm_compute; reflexivity|].
  left. vm_compute. reflexivity.
Defined.

Lemma createOAuth2Provider_trailing_slash_witness :
  ∃ provider,
    SpecWorld.createOAuth2Provider_at SpecWorld.alice "https://app/" "development"
      SpecWorld.envConfig_c1 tt tt =
      Resolve (SpecWorld.MkHandlers "https://app/" provider
                 {| disableRefresh := false; providerId := "oauth2";
                    tokenIssuer := tt |}) ∧
    provider.(_strategy).(Strategy.opts).(Strategy.callbackURL) =
      "https://app//oauth2/handler/frame".
Proof.
  apply (@createOAuth2Provider_trailing_slash (option string) _
           (SpecWorld.helper SpecWorld.alice) _ _ unit _ _
           (SpecWorld.host SpecWorld.alice)
           "https://app/" "development" SpecWorld.envConfig_c1 tt tt
           "c1" "s1" "https://idp/auth" "https://idp/token" "https://app");
    vm_compute; reflexivity.
Defined.
